(** * django-salesforce: [salesforce/fields.py]

    A shallow embedding of the field classes of [salesforce/fields.py]:
    the Salesforce primary-key field [SalesforceAutoField], the mix-in
    [SfField] with its column-naming method [get_attname_column], and the
    relation field [ForeignKey].

    Field names are Python strings, lists of code points; the string
    methods [islower], [title] and [replace] are written as CPython has
    them, over the character database of Unicode.  Python values are an
    inductive type, keyword arguments a finite map from option names to
    values, exceptions a sum.  What belongs to the host framework (the
    initialisers and [contribute_to_class] of [django.db.models],
    [smart_text], the builtin [str]) is not part of this repository: it
    is a variable of the section that uses it. *)

From Stdlib Require Import ZArith NArith Bool Ascii String List Lia.
From stdpp Require Import base option gmap strings list fin_maps pretty.

(** ** Python strings

    A [str] of Python 3 is the list of its code points.  The string
    methods used here are those of CPython ([unicodeobject.c]); the
    predicates and case mappings of the Unicode character database that
    they consult are not part of this repository and are taken as the
    fields of [Unicode]. *)

Abbreviation pystr := (list N).

(** A string literal as a Python string. *)
Definition pystr_of (s : string) : pystr :=
  map N_of_ascii (list_ascii_of_string s).

Class Unicode : Type := {
  (** [Py_UNICODE_ISLOWER], [Py_UNICODE_ISUPPER], [Py_UNICODE_ISTITLE]. *)
  is_lower : N -> bool;
  is_upper : N -> bool;
  is_title : N -> bool;
  (** [_PyUnicode_IsCased]. *)
  is_cased : N -> bool;
  (** [_PyUnicode_ToTitleFull]: the title-case mapping of a code point. *)
  to_title_full : N -> list N;
  (** [lower_ucs4(data, i, c)]: the lower-case mapping of the code point
      [c] at index [i] of [data]; that of capital sigma depends on its
      neighbours. *)
  lower_ucs4 : list N -> nat -> N -> list N
}.

Module PyStr.

Section Methods.

Context {U : Unicode}.

(** [str.islower()]: the scan stops with [False] at the first upper-case
    or title-case character, and remembers in [cased] whether a
    lower-case character was seen; the answer at the end of the string is
    [cased].  A string of one character is answered at once. *)
Fixpoint islower_loop (cased : bool) (s : list N) : bool :=
  match s with
  | [] => cased
  | ch :: s' =>
      if is_upper ch || is_title ch then false
      else islower_loop (cased || is_lower ch) s'
  end.

Definition islower (s : list N) : bool :=
  match s with
  | [ch] => is_lower ch
  | _ => islower_loop false s
  end.

(** [str.title()]: a character that follows a cased character is
    lower-cased, any other character is title-cased. *)
Fixpoint title_loop (data : list N) (i : nat) (previous_is_cased : bool)
    (s : list N) : list N :=
  match s with
  | [] => []
  | c :: s' =>
      (if previous_is_cased then lower_ucs4 data i c else to_title_full c)
      ++ title_loop data (S i) (is_cased c) s'
  end.

Definition title (s : list N) : list N := title_loop s 0 false s.

(** [str.lower()]. *)
Fixpoint lower_loop (data : list N) (i : nat) (s : list N) : list N :=
  match s with
  | [] => []
  | c :: s' => lower_ucs4 data i c ++ lower_loop data (S i) s'
  end.

Definition lower (s : list N) : list N := lower_loop s 0 s.

End Methods.

(** [str.replace(old, new)] for a pattern [old] of one character. *)
Fixpoint replace (old : N) (new : list N) (s : list N) : list N :=
  match s with
  | [] => []
  | c :: s' =>
      if (c =? old)%N then new ++ replace old new s'
      else c :: replace old new s'
  end.

End PyStr.

(** The underscore. *)
Definition underscore : N := 95.

(** ** Python values, keyword arguments, exceptions *)

(** The objects that reach the code of this module as option values and
    arguments.  [VObj] is a function or a class: an object with a
    [__name__], which is all that is looked at. *)
Inductive value : Type :=
  | VNone
  | VBool (b : bool)
  | VInt (n : Z)
  | VStr (s : string)
  | VObj (name : string).

#[global] Instance value_eq_dec : EqDecision value.
Proof. solve_decision. Defined.

(** Truth value of an object, as [if x:] takes it. *)
Definition truthy (v : value) : bool :=
  match v with
  | VNone => false
  | VBool b => b
  | VInt n => negb (n =? 0)%Z
  | VStr s => negb (String.eqb s "")
  | VObj _ => true
  end.

Inductive exn : Type :=
  | AssertionError (msg : string)
  | IndexError
  | AttributeError
  | FrameworkError (msg : string).

(** The outcome of a call: an exception or a result. *)
Definition result (A : Type) : Type := exn + A.

Definition Raise {A : Type} (e : exn) : result A := inl e.
Definition Return {A : Type} (a : A) : result A := inr a.

Definition bind {A B : Type} (m : result A) (k : A -> result B) : result B :=
  match m with
  | inl e => inl e
  | inr a => k a
  end.

(** [obj.__name__]. *)
Definition getattr_name (v : value) : result string :=
  match v with
  | VObj n => Return n
  | _ => Raise AttributeError
  end.

(** [args[0]] on the tuple of positional arguments. *)
Definition args_0 (args : list value) : result value :=
  match args with
  | [] => Raise IndexError
  | a :: _ => Return a
  end.

(** The deletion policies of [django.db.models]; [SET(v)] returns a
    closure named [set_on_delete]. *)
Definition CASCADE : value := VObj "CASCADE".
Definition PROTECT : value := VObj "PROTECT".
Definition SET_NULL : value := VObj "SET_NULL".
Definition SET_DEFAULT : value := VObj "SET_DEFAULT".
Definition DO_NOTHING : value := VObj "DO_NOTHING".
Definition SET : value := VObj "set_on_delete".

Definition FULL_WRITABLE : Z := 0.
Definition NOT_UPDATEABLE : Z := 1.
Definition NOT_CREATEABLE : Z := 2.
Definition READ_ONLY : Z := 3.


(** ** Field descriptors and the naming methods *)

(** The classes of the module that inherit from [SfField]. *)
Inductive FieldClass : Type :=
  | CharField | EmailField | URLField | TextField
  | IntegerField | SmallIntegerField | BooleanField | DecimalField
  | DateTimeField | DateField | TimeField
  | ForeignKey.

#[global] Instance FieldClass_eq_dec : EqDecision FieldClass.
Proof. solve_decision. Defined.

(** The attributes of a field that the naming methods read: [name] as
    declared in the model class, [db_column] ([None] when no override
    was given), and the two attributes set by [SfField.__init__]. *)
Record Field : Type := mkField {
  cls : FieldClass;
  name : list N;
  db_column : option (list N);
  sf_read_only : value;
  sf_custom : value
}.

Section NamingMethods.

Context {U : Unicode}.

(** The local variable [column] of [SfField.get_attname_column] before
    the custom suffix is added (the two branches on [self.name.islower()]). *)
Definition base_column (name : list N) : list N :=
  if negb (PyStr.islower name) then name
  else PyStr.replace underscore [] (PyStr.title name).

(** [Field.get_attname] of the framework, inherited by the scalar
    fields: the attribute name is the declared name. *)
Definition Field_get_attname (self : Field) : list N := name self.

Definition ForeignKey_get_attname (self : Field) : list N :=
  if PyStr.islower (name self) then name self ++ pystr_of "_id"
  else name self ++ pystr_of "Id".

(** [self.get_attname()], resolved on the class of [self]. *)
Definition get_attname (self : Field) : list N :=
  match cls self with
  | ForeignKey => ForeignKey_get_attname self
  | _ => Field_get_attname self
  end.

Definition SfField_get_attname_column (self : Field) : list N * list N :=
  let attname := get_attname self in
  let column :=
    match db_column self with
    | Some c => c
    | None =>
        let column := base_column (name self) in
        if truthy (sf_custom self) then column ++ pystr_of "__c" else column
    end in
  (attname, column).

Definition ForeignKey_get_attname_column (self : Field) : list N * list N :=
  let '(attname, column) := SfField_get_attname_column self in
  let column :=
    if bool_decide (db_column self = None) && negb (truthy (sf_custom self))
    then column ++ pystr_of "Id" else column in
  (attname, column).

(** [self.get_attname_column()], resolved on the class of [self]. *)
Definition get_attname_column (self : Field) : list N * list N :=
  match cls self with
  | ForeignKey => ForeignKey_get_attname_column self
  | _ => SfField_get_attname_column self
  end.

Definition attname (self : Field) : list N := fst (get_attname_column self).
Definition column (self : Field) : list N := snd (get_attname_column self).

End NamingMethods.

(** ** Calls that may warn

    [warnings.warn] appends to a log; a call returns the warnings it
    emitted together with its outcome. *)

Definition Py (A : Type) : Type := list string * result A.

Definition ret {A : Type} (a : A) : Py A := ([], Return a).
Definition lift {A : Type} (r : result A) : Py A := ([], r).
Definition warn (msg : string) : Py unit := ([msg], Return tt).

Definition pbind {A B : Type} (m : Py A) (k : A -> Py B) : Py B :=
  match m with
  | (w, inl e) => (w, inl e)
  | (w, inr a) => let '(w', r) := k a in (w ++ w', r)
  end.

Notation "x <- m ;; k" := (pbind m (fun x => k))
  (at level 100, m at next level, right associativity).
Notation "m ;;; k" := (pbind m (fun _ => k))
  (at level 100, right associativity).

(** [x in t] for a tuple of strings. *)
Definition str_in (x : string) (t : list string) : bool :=
  existsb (String.eqb x) t.

(** ** Construction and registration *)

Section Fields.

(** The state the framework keeps in a field object, and in a model
    class beside the two attributes of [_meta] this module touches. *)
Context {FieldState ClassState : Type}.

(** [__init__] of the framework class next in the method resolution
    order ([fields.Field] for the identifier field, the scalar field or
    [models.ForeignKey] for the others), called with the positional and
    the keyword arguments. *)
Variable Field_init : list value -> gmap string value -> result FieldState.

(** [smart_text] of [django.utils.encoding] and the builtin [str]. *)
Variable smart_text : value -> string.
Variable py_str : value -> string.

(** *** SalesforceAutoField *)

Definition SalesforceAutoField_init (class_name : string)
    (args : list value) (kwargs : gmap string value) : result FieldState :=
  if bool_decide (default (VBool false) (kwargs !! "primary_key") = VBool true)
  then
    let kwargs := <["blank" := VBool false]> kwargs in
    let kwargs := <["null" := VBool false]> kwargs in
    let kwargs := <["default" := VNone]> kwargs in
    Field_init args kwargs
  else
    Raise (AssertionError (class_name +:+ "s must have primary_key=True.")).

Definition get_internal_type : string := "AutoField".

Definition to_python (v : value) : value :=
  match v with
  | VStr _ | VNone => v
  | _ => VStr (smart_text v)
  end.

Definition validate {Model : Type} (v : value) (model_instance : Model)
  : result unit := Return tt.

Definition get_prep_value (v : value) : value := to_python v.

Definition formfield (kwargs : gmap string value) : value := VNone.

(** [cls._meta]: the two attributes set here, and the rest. *)
Record Options : Type := mkOptions {
  has_auto_field : bool;
  auto_field : option FieldState;
  meta_rest : ClassState
}.

(** [Field.contribute_to_class] of the framework: it names the field
    and registers it in the class. *)
Variable Field_contribute_to_class :
  FieldState -> Options -> string -> result (FieldState * Options).

Definition contribute_to_class (self : FieldState) (cls : Options)
    (name : string) : result (FieldState * Options) :=
  if has_auto_field cls
  then Raise (AssertionError "A model can't have more than one AutoField.")
  else
    bind (Field_contribute_to_class self cls name) (fun '(self, cls) =>
      let cls := mkOptions true (auto_field cls) (meta_rest cls) in
      let cls := mkOptions (has_auto_field cls) (Some self) (meta_rest cls) in
      Return (self, cls)).

(** A model class body that declares the identifier fields [decls], in
    order: each is attached to the class; the first failure ends the
    construction of the class. *)
Fixpoint attach_auto_fields (decls : list (FieldState * string))
    (cls : Options) : result Options :=
  match decls with
  | [] => Return cls
  | (f, name) :: decls' =>
      bind (contribute_to_class f cls name) (fun '(_, cls') =>
        attach_auto_fields decls' cls')
  end.

(** *** SfField *)

(** A field object of a class that mixes in [SfField]. *)
Record SfObject : Type := mkSfObject {
  obj_sf_read_only : value;
  obj_sf_custom : value;
  obj_state : FieldState
}.

(** [kwargs.pop(key, default)]. *)
Definition kwargs_pop (key : string) (dflt : value)
    (kwargs : gmap string value) : value * gmap string value :=
  (default dflt (kwargs !! key), delete key kwargs).

Definition SfField_init (args : list value) (kwargs : gmap string value)
  : result SfObject :=
  let '(ro, kwargs) := kwargs_pop "sf_read_only" (VInt 0) kwargs in
  let '(cu, kwargs) := kwargs_pop "custom" (VBool false) kwargs in
  bind (Field_init args kwargs) (fun st => Return (mkSfObject ro cu st)).

(** *** ForeignKey *)

Definition on_delete_warning (on_delete : string) (related_object : value)
  : string :=
  "Only foreign keys with on_delete = PROTECT or "
  +:+ "DO_NOTHING are currently supported, not " +:+ on_delete
  +:+ " related to " +:+ py_str related_object.

Definition ForeignKey_init (args : list value) (kwargs : gmap string value)
  : Py SfObject :=
  on_delete <- lift (getattr_name (default CASCADE (kwargs !! "on_delete"))) ;;
  (if negb (str_in on_delete ["PROTECT"; "DO_NOTHING"])
   then related_object <- lift (args_0 args) ;;
        warn (on_delete_warning on_delete related_object)
   else ret tt) ;;;
  lift (SfField_init args kwargs).

End Fields.


(** ** ASCII

    The string methods on ASCII text, written out: only the letters
    [a]-[z] and [A]-[Z] are cased, and each maps to one letter. *)

Module AsciiCase.

Definition islower_char (c : N) : bool := (97 <=? c)%N && (c <=? 122)%N.
Definition isupper_char (c : N) : bool := (65 <=? c)%N && (c <=? 90)%N.
Definition iscased_char (c : N) : bool := isupper_char c || islower_char c.
Definition upper_char (c : N) : N := if islower_char c then (c - 32)%N else c.
Definition lower_char (c : N) : N := if isupper_char c then (c + 32)%N else c.

Fixpoint islower_loop (cased : bool) (s : list N) : bool :=
  match s with
  | [] => cased
  | c :: s' =>
      if isupper_char c then false
      else islower_loop (cased || islower_char c) s'
  end.

Definition islower (s : list N) : bool := islower_loop false s.

Fixpoint title_loop (previous_is_cased : bool) (s : list N) : list N :=
  match s with
  | [] => []
  | c :: s' =>
      (if previous_is_cased then lower_char c else upper_char c)
      :: title_loop (iscased_char c) s'
  end.

Definition title (s : list N) : list N := title_loop false s.

Definition lower (s : list N) : list N := map lower_char s.

End AsciiCase.

(** The database restricted to ASCII: every other code point is uncased
    and mapped to itself. *)
Definition ascii_unicode : Unicode := {|
  is_lower := AsciiCase.islower_char;
  is_upper := AsciiCase.isupper_char;
  is_title := fun _ => false;
  is_cased := AsciiCase.iscased_char;
  to_title_full := fun c => [AsciiCase.upper_char c];
  lower_ucs4 := fun _ _ c => [AsciiCase.lower_char c]
|}.

(** Whether a string is ASCII text. *)
Definition is_ascii (s : list N) : bool := forallb (fun c => (c <? 128)%N) s.

(** What the proofs use of the Unicode character database: on ASCII code
    points its predicates and mappings are those of [AsciiCase], and the
    title-case mapping of a code point other than the underscore is not
    empty and has no underscore. *)
Class UnicodeFacts (U : Unicode) : Prop := {
  ascii_is_lower : forall c, (c < 128)%N -> is_lower c = AsciiCase.islower_char c;
  ascii_is_upper : forall c, (c < 128)%N -> is_upper c = AsciiCase.isupper_char c;
  ascii_is_title : forall c, (c < 128)%N -> is_title c = false;
  ascii_is_cased : forall c, (c < 128)%N -> is_cased c = AsciiCase.iscased_char c;
  ascii_to_title_full : forall c,
    (c < 128)%N -> to_title_full c = [AsciiCase.upper_char c];
  ascii_lower_ucs4 : forall data i c,
    (c < 128)%N -> lower_ucs4 data i c = [AsciiCase.lower_char c];
  title_keeps_text : forall c,
    c <> underscore ->
    to_title_full c <> [] /\ ~ In underscore (to_title_full c)
}.

(** ** Declarations used as instances *)

Definition email_bounced_reason : Field :=
  mkField CharField (pystr_of "email_bounced_reason") None
          (VInt NOT_CREATEABLE) (VBool false).

Definition my_field : Field :=
  mkField IntegerField (pystr_of "my_field") None
          (VInt FULL_WRITABLE) (VBool true).

Definition account_number : Field :=
  mkField ForeignKey (pystr_of "account")
          (Some (pystr_of "Account_Number__c")) (VInt 0) (VBool true).

Definition owner : Field :=
  mkField ForeignKey (pystr_of "owner") None (VInt 0) (VBool false).

Definition CreatedBy : Field :=
  mkField ForeignKey (pystr_of "CreatedBy") None (VInt READ_ONLY) (VBool false).

(** A framework that records what it is given: the initialiser keeps its
    arguments as the state of the field, [contribute_to_class] adds the
    name of the field to the names registered in the class.  The
    constructors are run against it on concrete declarations. *)
Definition recorded : Type := list value * gmap string value.

Definition recording_init (args : list value) (kwargs : gmap string value)
  : result recorded := Return (args, kwargs).

Definition recording_contribute (self : recorded)
    (cls : @Options recorded (list string)) (name : string)
  : result (recorded * @Options recorded (list string)) :=
  Return (self, mkOptions (has_auto_field cls) (auto_field cls)
                          (name :: meta_rest cls)).

Definition text_of (v : value) : string :=
  match v with
  | VNone => "None"
  | VBool true => "True"
  | VBool false => "False"
  | VInt n => pretty n
  | VStr s => s
  | VObj n => "<class '" +:+ n +:+ "'>"
  end.

Definition id_field : recorded := ([], {["primary_key" := VBool true]}).

Definition empty_class : @Options recorded (list string) :=
  mkOptions false None [].

Definition class_with_id : @Options recorded (list string) :=
  mkOptions true (Some id_field) ["Id"].

(** ** The naming rule in the words of the specification

    A local-style name is a sequence of lower-case words joined by
    underscores; its remote form is the words, each with its first
    letter in upper case, written one after the other. *)

Module NamingSpec.

(** [s.split(sep)] for a separator of one character. *)
Fixpoint split (sep : N) (s : list N) : list (list N) :=
  match s with
  | [] => [[]]
  | c :: s' =>
      if (c =? sep)%N then [] :: split sep s'
      else match split sep s' with
           | [] => [[c]]
           | w :: ws => (c :: w) :: ws
           end
  end.

Definition capitalize (w : list N) : list N :=
  match w with
  | [] => []
  | c :: w' => AsciiCase.upper_char c :: w'
  end.

Definition camel_case (s : list N) : list N :=
  concat (map capitalize (split underscore s)).

(** Names written with lower-case letters and underscores only. *)
Definition lower_or_underscore (s : list N) : bool :=
  forallb (fun c => AsciiCase.islower_char c || (c =? underscore)%N) s.

End NamingSpec.

(** Number of occurrences of a character in a string. *)
Fixpoint count_char (c : N) (s : list N) : nat :=
  match s with
  | [] => 0
  | d :: s' => (if (d =? c)%N then 1 else 0) + count_char c s'
  end.

(** Whether an ASCII string has an upper-case letter. *)
Fixpoint has_upper (s : list N) : bool :=
  match s with
  | [] => false
  | c :: s' => AsciiCase.isupper_char c || has_upper s'
  end.

(** Whether the last character of [s] is cased; [b] for the empty
    string.  This is [previous_is_cased] when the loop of [title] leaves
    [s], entered with [b]. *)
Fixpoint cased_after (b : bool) (s : list N) : bool :=
  match s with
  | [] => b
  | c :: s' => cased_after (AsciiCase.iscased_char c) s'
  end.

(** * Properties *)

(** ** Characters *)

Ltac char_cases :=
  unfold AsciiCase.iscased_char, AsciiCase.upper_char, AsciiCase.lower_char,
         AsciiCase.islower_char, AsciiCase.isupper_char, underscore in *;
  repeat match goal with
         | |- context [(?a <=? ?b)%N] => destruct (N.leb_spec a b)
         | |- context [(?a =? ?b)%N] => destruct (N.eqb_spec a b)
         | H : context [(?a <=? ?b)%N] |- _ => destruct (N.leb_spec a b)
         | H : context [(?a =? ?b)%N] |- _ => destruct (N.eqb_spec a b)
         end;
  cbn [andb orb negb] in *; try discriminate; try lia; try reflexivity.

Lemma lower_char_of_lower (c : N) :
  AsciiCase.islower_char c = true ->
  AsciiCase.lower_char c = c /\ AsciiCase.iscased_char c = true
  /\ AsciiCase.isupper_char c = false
  /\ (c =? underscore)%N = false
  /\ (AsciiCase.upper_char c =? underscore)%N = false
  /\ AsciiCase.isupper_char (AsciiCase.upper_char c) = true.
Proof. intros H. repeat split; char_cases. Qed.

Lemma underscore_char :
  AsciiCase.lower_char underscore = underscore
  /\ AsciiCase.upper_char underscore = underscore
  /\ AsciiCase.iscased_char underscore = false.
Proof. repeat split. Qed.

Lemma upper_char_uncased (c : N) :
  AsciiCase.islower_char c = false -> AsciiCase.upper_char c = c.
Proof. intros H. unfold AsciiCase.upper_char. now rewrite H. Qed.

Lemma lower_char_not_upper (c : N) :
  AsciiCase.isupper_char c = false -> AsciiCase.lower_char c = c.
Proof. intros H. unfold AsciiCase.lower_char. now rewrite H. Qed.

Lemma case_keeps_underscore (c : N) :
  (AsciiCase.upper_char c =? underscore)%N = (c =? underscore)%N
  /\ (AsciiCase.lower_char c =? underscore)%N = (c =? underscore)%N.
Proof. split; char_cases. Qed.

Lemma lower_char_absorbs (c : N) :
  AsciiCase.lower_char (AsciiCase.upper_char c) = AsciiCase.lower_char c
  /\ AsciiCase.lower_char (AsciiCase.lower_char c) = AsciiCase.lower_char c.
Proof. split; char_cases. Qed.

Lemma case_keeps_ascii (c : N) :
  (c <? 128)%N = true ->
  (AsciiCase.upper_char c <? 128)%N = true
  /\ (AsciiCase.lower_char c <? 128)%N = true.
Proof.
  intros H. apply N.ltb_lt in H. split; apply N.ltb_lt; char_cases.
Qed.

(** ** Strings *)

Lemma replace_removes (c : N) (s : list N) :
  ~ In c (PyStr.replace c [] s).
Proof.
  induction s as [|d s IH]; cbn [PyStr.replace]; [easy|].
  destruct (N.eqb_spec d c) as [->|Hd]; [exact IH|].
  intros [H|H]; [now apply Hd | now apply IH].
Qed.

Lemma replace_app (c : N) (new a b : list N) :
  PyStr.replace c new (a ++ b) = PyStr.replace c new a ++ PyStr.replace c new b.
Proof.
  induction a as [|d a IH]; [reflexivity|].
  cbn [app PyStr.replace]. destruct (d =? c)%N.
  - now rewrite IH, app_assoc.
  - now rewrite IH.
Qed.

Lemma replace_length (c : N) (s : list N) :
  length (PyStr.replace c [] s) + count_char c s = length s.
Proof.
  induction s as [|d s IH]; [reflexivity|].
  cbn [PyStr.replace count_char length]. destruct (d =? c)%N; cbn [app length]; lia.
Qed.

Lemma has_upper_app (a b : list N) :
  has_upper (a ++ b) = has_upper a || has_upper b.
Proof.
  induction a as [|c a IH]; [reflexivity|].
  cbn [app has_upper]. now rewrite IH, orb_assoc.
Qed.

Lemma has_upper_not_islower (s : list N) (b : bool) :
  has_upper s = true -> AsciiCase.islower_loop b s = false.
Proof.
  revert b. induction s as [|c s IH]; intros b H; [discriminate|].
  cbn [has_upper AsciiCase.islower_loop] in *.
  destruct (AsciiCase.isupper_char c); [reflexivity|]. now apply IH.
Qed.

Lemma islower_loop_no_upper (s : list N) (b : bool) :
  AsciiCase.islower_loop b s = true -> has_upper s = false.
Proof.
  intros H. destruct (has_upper s) eqn:E; [|reflexivity].
  now rewrite (has_upper_not_islower s b E) in H.
Qed.

Lemma islower_loop_cased_no_upper (s : list N) :
  has_upper s = false -> AsciiCase.islower_loop true s = true.
Proof.
  induction s as [|c s IH]; intros H; [reflexivity|].
  cbn [has_upper AsciiCase.islower_loop] in *.
  apply orb_false_iff in H as [Hc Hs]. rewrite Hc. now apply IH.
Qed.

Lemma islower_loop_append (n t : list N) (b : bool) :
  has_upper t = false ->
  AsciiCase.islower_loop b n = true ->
  AsciiCase.islower_loop b (n ++ t) = true.
Proof.
  intros Ht. revert b. induction n as [|c n IH]; intros b Hb.
  - cbn in Hb. subst b. now apply islower_loop_cased_no_upper.
  - cbn [app AsciiCase.islower_loop] in *.
    destruct (AsciiCase.isupper_char c); [discriminate|]. now apply IH.
Qed.

Lemma title_loop_length (s : list N) (b : bool) :
  length (AsciiCase.title_loop b s) = length s.
Proof.
  revert b. induction s as [|c s IH]; intros b; [reflexivity|].
  cbn [AsciiCase.title_loop length]. now rewrite IH.
Qed.

Lemma title_loop_count_underscore (s : list N) (b : bool) :
  count_char underscore (AsciiCase.title_loop b s) = count_char underscore s.
Proof.
  revert b. induction s as [|c s IH]; intros b; [reflexivity|].
  cbn [AsciiCase.title_loop count_char]. rewrite IH.
  destruct (case_keeps_underscore c) as [Hu Hl].
  destruct b; now rewrite ?Hu, ?Hl.
Qed.

Lemma title_loop_append (a t : list N) (b : bool) :
  AsciiCase.title_loop b (a ++ t) =
  AsciiCase.title_loop b a ++ AsciiCase.title_loop (cased_after b a) t.
Proof.
  revert b. induction a as [|c a IH]; intros b; [reflexivity|].
  cbn [app AsciiCase.title_loop cased_after]. now rewrite IH.
Qed.

Lemma lower_title_loop (s : list N) (b : bool) :
  AsciiCase.lower (AsciiCase.title_loop b s) = AsciiCase.lower s.
Proof.
  unfold AsciiCase.lower.
  revert b. induction s as [|c s IH]; intros b; [reflexivity|].
  cbn [AsciiCase.title_loop map]. rewrite IH.
  destruct (lower_char_absorbs c) as [Hu Hl].
  destruct b; now rewrite ?Hu, ?Hl.
Qed.

Lemma lower_replace (s : list N) :
  AsciiCase.lower (PyStr.replace underscore [] s)
  = PyStr.replace underscore [] (AsciiCase.lower s).
Proof.
  unfold AsciiCase.lower.
  induction s as [|c s IH]; [reflexivity|].
  cbn [PyStr.replace map].
  destruct (case_keeps_underscore c) as [_ Hl]. rewrite Hl.
  destruct (c =? underscore)%N; cbn [app map]; now rewrite IH.
Qed.

Lemma lower_no_upper (s : list N) :
  has_upper s = false -> AsciiCase.lower s = s.
Proof.
  unfold AsciiCase.lower.
  induction s as [|c s IH]; intros H; [reflexivity|].
  cbn [has_upper map] in *. apply orb_false_iff in H as [Hc Hs].
  now rewrite (lower_char_not_upper c Hc), IH.
Qed.

(** The title-cased form of a lower-case name, without its underscores,
    has an upper-case letter: the first letter of the name. *)
Lemma title_of_lower_has_upper (s : list N) :
  AsciiCase.islower_loop false s = true ->
  has_upper (PyStr.replace underscore [] (AsciiCase.title_loop false s)) = true.
Proof.
  induction s as [|c s IH]; intros H; [discriminate|].
  cbn [AsciiCase.islower_loop AsciiCase.title_loop PyStr.replace] in *.
  destruct (AsciiCase.isupper_char c) eqn:Hup; [discriminate|].
  destruct (AsciiCase.islower_char c) eqn:Hlo.
  - destruct (lower_char_of_lower c Hlo) as (_ & _ & _ & _ & Hu & Hupper).
    rewrite Hu. cbn [has_upper]. now rewrite Hupper.
  - cbn [orb] in H. rewrite (upper_char_uncased c Hlo).
    unfold AsciiCase.iscased_char. rewrite Hup, Hlo. cbn [orb].
    destruct (c =? underscore)%N.
    + now apply IH.
    + cbn [has_upper]. rewrite Hup. now apply IH.
Qed.

Lemma split_nonempty (sep : N) (s : list N) : NamingSpec.split sep s <> [].
Proof.
  destruct s as [|c s]; cbn [NamingSpec.split]; [discriminate|].
  destruct (c =? sep)%N; [discriminate|].
  destruct (NamingSpec.split sep s); discriminate.
Qed.

(** The loop of [title], followed by the removal of underscores, on a
    name of lower-case letters and underscores: the first word is
    capitalised unless the loop starts inside a word, every later word
    is capitalised. *)
Lemma title_loop_words (s : list N) :
  NamingSpec.lower_or_underscore s = true ->
  forall b,
    PyStr.replace underscore [] (AsciiCase.title_loop b s) =
    match NamingSpec.split underscore s with
    | [] => []
    | w :: ws =>
        (if b then w else NamingSpec.capitalize w)
        ++ concat (map NamingSpec.capitalize ws)
    end.
Proof.
  induction s as [|c s IH]; intros Hs b.
  - cbn. now destruct b.
  - cbn [NamingSpec.lower_or_underscore forallb] in Hs.
    apply andb_true_iff in Hs as [Hc Hs].
    specialize (IH Hs).
    cbn [AsciiCase.title_loop NamingSpec.split].
    destruct (N.eqb_spec c underscore) as [->|Hu].
    + destruct underscore_char as (Hl & Hup & Hcs).
      rewrite Hl, Hup, Hcs.
      replace (if b then underscore else underscore) with underscore
        by now destruct b.
      cbn [PyStr.replace]. rewrite N.eqb_refl. cbn [app].
      rewrite (IH false).
      destruct (NamingSpec.split underscore s) as [|w ws] eqn:Hsp.
      * now destruct (split_nonempty _ _ Hsp).
      * cbn [map concat]. now destruct b.
    + rewrite orb_false_r in Hc.
      destruct (lower_char_of_lower c Hc) as (Hl & Hcs & _ & Hcu & Hupu & _).
      rewrite Hl, Hcs.
      destruct (NamingSpec.split underscore s) as [|w ws] eqn:Hsp.
      * now destruct (split_nonempty _ _ Hsp).
      * specialize (IH true). cbn beta iota in IH.
        destruct b; cbn [PyStr.replace].
        -- rewrite Hcu, IH. reflexivity.
        -- rewrite Hupu, IH. reflexivity.
Qed.

(** ** ASCII strings under the Unicode methods *)

Lemma is_ascii_cons (c : N) (s : list N) :
  is_ascii (c :: s) = true -> (c < 128)%N /\ is_ascii s = true.
Proof.
  cbn [is_ascii forallb]. intros H. apply andb_true_iff in H as [Hc Hs].
  split; [now apply N.ltb_lt | exact Hs].
Qed.

Lemma is_ascii_app (a b : list N) :
  is_ascii (a ++ b) = is_ascii a && is_ascii b.
Proof. apply forallb_app. Qed.

Lemma is_ascii_replace (c : N) (s : list N) :
  is_ascii s = true -> is_ascii (PyStr.replace c [] s) = true.
Proof.
  induction s as [|d s IH]; intros H; [reflexivity|].
  cbn [is_ascii forallb] in H. apply andb_true_iff in H as [Hd Hs].
  cbn [PyStr.replace]. destruct (d =? c)%N; cbn [app]; [now apply IH|].
  cbn [is_ascii forallb]. rewrite Hd. now apply IH.
Qed.

Lemma is_ascii_title_loop (s : list N) (b : bool) :
  is_ascii s = true -> is_ascii (AsciiCase.title_loop b s) = true.
Proof.
  revert b. induction s as [|c s IH]; intros b H; [reflexivity|].
  cbn [is_ascii forallb] in H. apply andb_true_iff in H as [Hc Hs].
  cbn [AsciiCase.title_loop is_ascii forallb].
  destruct (case_keeps_ascii c Hc) as [Hu Hl].
  rewrite (IH _ Hs). now destruct b; rewrite ?Hu, ?Hl.
Qed.

Section AsciiText.

Context {U : Unicode} {HU : UnicodeFacts U}.

Lemma islower_loop_ascii (s : list N) (b : bool) :
  is_ascii s = true ->
  PyStr.islower_loop b s = AsciiCase.islower_loop b s.
Proof.
  revert b. induction s as [|c s IH]; intros b H; [reflexivity|].
  apply is_ascii_cons in H as [Hc Hs].
  cbn [PyStr.islower_loop AsciiCase.islower_loop].
  rewrite (ascii_is_upper c Hc), (ascii_is_title c Hc), (ascii_is_lower c Hc).
  rewrite orb_false_r. now rewrite (IH _ Hs).
Qed.

Lemma islower_ascii (s : list N) :
  is_ascii s = true -> PyStr.islower s = AsciiCase.islower s.
Proof.
  intros H. unfold AsciiCase.islower.
  destruct s as [|c [|d s]]; [reflexivity| |now apply islower_loop_ascii].
  apply is_ascii_cons in H as [Hc _].
  cbn [PyStr.islower AsciiCase.islower_loop]. rewrite (ascii_is_lower c Hc).
  clear. char_cases.
Qed.

Lemma title_loop_ascii (data s : list N) (i : nat) (b : bool) :
  is_ascii s = true ->
  PyStr.title_loop data i b s = AsciiCase.title_loop b s.
Proof.
  revert i b. induction s as [|c s IH]; intros i b H; [reflexivity|].
  apply is_ascii_cons in H as [Hc Hs].
  cbn [PyStr.title_loop AsciiCase.title_loop].
  rewrite (ascii_to_title_full c Hc), (ascii_lower_ucs4 data i c Hc).
  rewrite (ascii_is_cased c Hc), (IH _ _ Hs). now destruct b.
Qed.

Lemma title_ascii (s : list N) :
  is_ascii s = true -> PyStr.title s = AsciiCase.title s.
Proof. apply title_loop_ascii. Qed.

Lemma lower_loop_ascii (data s : list N) (i : nat) :
  is_ascii s = true -> PyStr.lower_loop data i s = AsciiCase.lower s.
Proof.
  unfold AsciiCase.lower.
  revert i. induction s as [|c s IH]; intros i H; [reflexivity|].
  apply is_ascii_cons in H as [Hc Hs].
  cbn [PyStr.lower_loop map].
  now rewrite (ascii_lower_ucs4 data i c Hc), (IH _ Hs).
Qed.

(** On an ASCII name the base column name is that of the ASCII methods. *)
Lemma base_column_ascii (n : list N) :
  is_ascii n = true ->
  base_column n =
  if AsciiCase.islower n
  then PyStr.replace underscore [] (AsciiCase.title n) else n.
Proof.
  intros H. unfold base_column.
  rewrite (islower_ascii n H), (title_ascii n H).
  now destruct (AsciiCase.islower n).
Qed.

Lemma base_column_is_ascii (n : list N) :
  is_ascii n = true -> is_ascii (base_column n) = true.
Proof.
  intros H. rewrite (base_column_ascii n H).
  destruct (AsciiCase.islower n); [|exact H].
  apply is_ascii_replace. now apply is_ascii_title_loop.
Qed.

End AsciiText.

(** ** The ASCII database *)

Lemma ascii_unicode_facts : UnicodeFacts ascii_unicode.
Proof.
  split; try reflexivity.
  intros c Hc. cbn. split; [discriminate|].
  intros [H|[]]. unfold underscore, AsciiCase.upper_char, AsciiCase.islower_char in *.
  destruct (N.leb_spec 97 c), (N.leb_spec c 122); cbn in H; lia.
Qed.

(** ** Column and attribute names *)

Section Naming.

Context {U : Unicode}.

Lemma base_column_unfold (n : list N) :
  base_column n =
  if PyStr.islower n then PyStr.replace underscore [] (PyStr.title n) else n.
Proof. unfold base_column. now destruct (PyStr.islower n). Qed.

Lemma SfField_column_no_override (self : Field) :
  db_column self = None ->
  snd (SfField_get_attname_column self) =
  base_column (name self)
  ++ (if truthy (sf_custom self) then pystr_of "__c" else []).
Proof.
  intros Hdb. unfold SfField_get_attname_column. cbn [snd]. rewrite Hdb.
  destruct (truthy (sf_custom self)); [reflexivity|].
  now rewrite app_nil_r.
Qed.

Lemma SfField_column_override (self : Field) (c : list N) :
  db_column self = Some c -> snd (SfField_get_attname_column self) = c.
Proof. intros Hdb. unfold SfField_get_attname_column. cbn [snd]. now rewrite Hdb. Qed.

Lemma ForeignKey_column_unfold (self : Field) :
  snd (ForeignKey_get_attname_column self) =
  if bool_decide (db_column self = None) && negb (truthy (sf_custom self))
  then snd (SfField_get_attname_column self) ++ pystr_of "Id"
  else snd (SfField_get_attname_column self).
Proof.
  unfold ForeignKey_get_attname_column.
  destruct (SfField_get_attname_column self) as [a c]. cbn [snd].
  now destruct (bool_decide (db_column self = None) && negb (truthy (sf_custom self))).
Qed.

Lemma column_scalar (self : Field) :
  cls self <> ForeignKey ->
  column self = snd (SfField_get_attname_column self).
Proof.
  intros Hc. unfold column, get_attname_column.
  destruct (cls self); try reflexivity. now destruct Hc.
Qed.

Lemma column_relation (self : Field) :
  cls self = ForeignKey ->
  column self = snd (ForeignKey_get_attname_column self).
Proof. intros Hc. unfold column, get_attname_column. now rewrite Hc. Qed.

Lemma attname_relation (self : Field) :
  cls self = ForeignKey -> attname self = ForeignKey_get_attname self.
Proof.
  intros Hc. unfold attname, get_attname_column. rewrite Hc.
  unfold ForeignKey_get_attname_column, SfField_get_attname_column, get_attname.
  now rewrite Hc.
Qed.

(** Without an override the column is the base column name and the
    suffix of the flags: [__c] for a custom field, [Id] for a relation
    that is not custom. *)
Lemma column_no_override (self : Field) :
  db_column self = None ->
  column self =
    base_column (name self) ++
      (if truthy (sf_custom self) then pystr_of "__c"
       else match cls self with ForeignKey => pystr_of "Id" | _ => [] end).
Proof.
  intros Hdb.
  destruct (decide (cls self = ForeignKey)) as [Hc|Hc].
  - rewrite (column_relation _ Hc), ForeignKey_column_unfold.
    rewrite (SfField_column_no_override _ Hdb), Hdb, Hc.
    rewrite bool_decide_eq_true_2 by reflexivity. cbn [andb].
    destruct (truthy (sf_custom self)); cbn [negb]; [reflexivity|].
    now rewrite app_nil_r.
  - rewrite (column_scalar _ Hc), (SfField_column_no_override _ Hdb).
    destruct (truthy (sf_custom self)); [reflexivity|].
    destruct (cls self); try reflexivity. now destruct Hc.
Qed.

Lemma lower_or_underscore_ascii (s : list N) :
  NamingSpec.lower_or_underscore s = true -> is_ascii s = true.
Proof.
  induction s as [|c s IH]; intros H; [reflexivity|].
  cbn [NamingSpec.lower_or_underscore forallb] in H.
  apply andb_true_iff in H as [Hc Hs].
  change (is_ascii (c :: s)) with ((c <? 128)%N && is_ascii s).
  rewrite (IH Hs), andb_true_r.
  apply N.ltb_lt. clear -Hc. char_cases.
Qed.

(** The base column name of an ASCII name of lower-case letters and
    underscores is its words, capitalised and joined. *)
Lemma base_column_camel_case (n : list N) :
  UnicodeFacts U ->
  NamingSpec.lower_or_underscore n = true ->
  PyStr.islower n = true ->
  base_column n = NamingSpec.camel_case n.
Proof.
  intros HU Hw Hl.
  pose proof (lower_or_underscore_ascii n Hw) as Ha.
  rewrite (islower_ascii n Ha) in Hl.
  rewrite (base_column_ascii n Ha), Hl.
  unfold AsciiCase.title, NamingSpec.camel_case.
  rewrite (title_loop_words _ Hw false).
  destruct (NamingSpec.split underscore n) as [|w ws] eqn:Hsp.
  - now destruct (split_nonempty _ _ Hsp).
  - reflexivity.
Qed.

(** C1.  For a field without [db_column], the base column name depends
    on the declared name alone: it is the name itself when the name is
    not lower-case ([islower()] false), and the title-cased name with the
    underscores removed when it is.  The column is this base name followed
    only by the suffix the flags call for, and the base name of a
    lower-case name has no underscore.  For a name of lower-case ASCII
    letters and underscores the base name is the capitalised words of the
    name joined together: [email_bounced_reason] gives
    [EmailBouncedReason]; [LastName] gives [LastName]. *)
Theorem base_column_of_declared_name (self : Field) :
  db_column self = None ->
  column self =
    base_column (name self) ++
      (if truthy (sf_custom self) then pystr_of "__c"
       else match cls self with ForeignKey => pystr_of "Id" | _ => [] end)
  /\ base_column (name self) =
       (if PyStr.islower (name self)
        then PyStr.replace underscore [] (PyStr.title (name self))
        else name self)
  /\ (PyStr.islower (name self) = true ->
      ~ In underscore (base_column (name self)))
  /\ (UnicodeFacts U ->
      (PyStr.islower (name self) = true ->
       NamingSpec.lower_or_underscore (name self) = true ->
       base_column (name self) = NamingSpec.camel_case (name self))
      /\ base_column (pystr_of "email_bounced_reason")
         = pystr_of "EmailBouncedReason"
      /\ base_column (pystr_of "LastName") = pystr_of "LastName").
Proof.
  intros Hdb. split; [now apply column_no_override|].
  split; [apply base_column_unfold|]. split.
  - intros Hl. rewrite base_column_unfold, Hl. apply replace_removes.
  - intros HU. split; [|split].
    + intros Hl Hw. now apply base_column_camel_case.
    + now rewrite base_column_ascii.
    + now rewrite base_column_ascii.
Qed.

(** C2.  With [custom=True] and no [db_column], the column is the base
    column name followed by [__c], for scalar and relation fields alike.
    The suffix is added to the transformed name: whenever the suffixed
    name is lower-case, transforming it instead would give another
    column, one without underscores.  [my_field] gives [MyField__c]. *)
Theorem custom_column_suffix (self : Field) :
  db_column self = None ->
  sf_custom self = VBool true ->
  column self = base_column (name self) ++ pystr_of "__c"
  /\ (PyStr.islower (name self ++ pystr_of "__c") = true ->
      column self <> base_column (name self ++ pystr_of "__c"))
  /\ (UnicodeFacts U ->
      column (mkField CharField (pystr_of "my_field") None (VInt 0) (VBool true))
      = pystr_of "MyField__c").
Proof.
  intros Hdb Hcu.
  assert (Hcol : column self = base_column (name self) ++ pystr_of "__c").
  { rewrite (column_no_override self Hdb), Hcu. reflexivity. }
  split; [exact Hcol|]. split.
  - intros Hl Heq.
    apply (replace_removes underscore (PyStr.title (name self ++ pystr_of "__c"))).
    rewrite base_column_unfold, Hl in Heq. rewrite <- Heq, Hcol.
    apply in_or_app. right. now left.
  - intros HU. rewrite column_no_override by reflexivity.
    cbn [name sf_custom truthy]. now rewrite base_column_ascii.
Qed.

(** C3.  With an explicit [db_column] the column is the override as
    given, whatever the class of the field, its [custom] flag and its
    declared name: no transformation, no [__c], no [Id]. *)
Theorem explicit_db_column_verbatim (self : Field) (c : list N) :
  db_column self = Some c -> column self = c.
Proof.
  intros Hdb.
  destruct (decide (cls self = ForeignKey)) as [Hc|Hc].
  - rewrite (column_relation _ Hc), ForeignKey_column_unfold.
    rewrite (SfField_column_override _ _ Hdb), Hdb.
    rewrite bool_decide_eq_false_2 by discriminate. reflexivity.
  - rewrite (column_scalar _ Hc). now apply SfField_column_override.
Qed.

(** C4.  The attribute name of a relation field is the declared name
    followed by [_id] when the name is lower-case and by [Id] otherwise;
    it is the first component of [get_attname_column].  On an ASCII name
    lower-case is: no letter [A]-[Z] and at least one letter [a]-[z].
    [owner] gives [owner_id]. *)
Theorem relation_attname (self : Field) :
  cls self = ForeignKey ->
  get_attname self =
    (if PyStr.islower (name self) then name self ++ pystr_of "_id"
     else name self ++ pystr_of "Id")
  /\ attname self = get_attname self
  /\ (UnicodeFacts U ->
      (is_ascii (name self) = true ->
       get_attname self =
         (if AsciiCase.islower (name self) then name self ++ pystr_of "_id"
          else name self ++ pystr_of "Id"))
      /\ attname (mkField ForeignKey (pystr_of "owner") None (VInt 0) (VBool false))
         = pystr_of "owner_id").
Proof.
  intros Hc.
  assert (Hg : get_attname self = ForeignKey_get_attname self).
  { unfold get_attname. now rewrite Hc. }
  split; [exact Hg|]. split; [|intros HU; split].
  - now rewrite attname_relation.
  - intros Ha. rewrite Hg. unfold ForeignKey_get_attname.
    now rewrite (islower_ascii _ Ha).
  - rewrite attname_relation by reflexivity. unfold ForeignKey_get_attname.
    cbn [name]. now rewrite islower_ascii.
Qed.

(** C5.  The column of a relation field is the column of the base
    algorithm, followed by [Id] exactly when there is no [db_column] and
    the field is not custom.  [owner] gives [OwnerId]; the custom
    relation [my_lookup] gives [MyLookup__c], with no [Id] after it. *)
Theorem relation_column (self : Field) :
  cls self = ForeignKey ->
  (db_column self = None /\ truthy (sf_custom self) = false ->
   column self = snd (SfField_get_attname_column self) ++ pystr_of "Id")
  /\ (~ (db_column self = None /\ truthy (sf_custom self) = false) ->
      column self = snd (SfField_get_attname_column self))
  /\ (UnicodeFacts U ->
      column (mkField ForeignKey (pystr_of "owner") None (VInt 0) (VBool false))
      = pystr_of "OwnerId"
      /\ column (mkField ForeignKey (pystr_of "my_lookup") None (VInt 0) (VBool true))
         = pystr_of "MyLookup__c").
Proof.
  intros Hc. rewrite (column_relation _ Hc), ForeignKey_column_unfold.
  split; [|split].
  - intros [Hdb Hcu]. rewrite Hdb, Hcu.
    rewrite bool_decide_eq_true_2 by reflexivity. reflexivity.
  - intros Hn.
    destruct (bool_decide (db_column self = None)) eqn:Hb;
      destruct (truthy (sf_custom self)) eqn:Ht; try reflexivity.
    apply bool_decide_eq_true_1 in Hb. now destruct Hn.
  - intros HU. split.
    + rewrite column_no_override by reflexivity.
      cbn [name sf_custom truthy cls]. now rewrite base_column_ascii.
    + rewrite column_no_override by reflexivity.
      cbn [name sf_custom truthy cls]. now rewrite base_column_ascii.
Qed.

End Naming.

(** ** Construction and registration *)

Section FieldsProperties.

Context {FieldState ClassState : Type}.
Variable Field_init : list value -> gmap string value -> result FieldState.
Variable smart_text : value -> string.
Variable py_str : value -> string.
Variable Field_contribute_to_class :
  FieldState -> @Options FieldState ClassState -> string ->
  result (FieldState * @Options FieldState ClassState).

Abbreviation contribute := (contribute_to_class Field_contribute_to_class).
Abbreviation attach := (attach_auto_fields Field_contribute_to_class).
Abbreviation one_auto_field_msg :=
  "A model can't have more than one AutoField.".

(** C6.  Without [primary_key=True] among the keyword arguments the
    construction of the identifier field stops at the assertion, before
    the framework initialiser is reached.  With it, the construction is
    that of the framework initialiser on keyword arguments in which
    [blank] is [False], [null] is [False] and [default] is [None],
    whatever the caller gave for them; every other option is passed on
    as given. *)
Theorem auto_field_requires_primary_key (class_name : string)
    (args : list value) (kwargs : gmap string value) :
  (kwargs !! "primary_key" <> Some (VBool true) ->
   SalesforceAutoField_init Field_init class_name args kwargs =
     Raise (AssertionError (class_name +:+ "s must have primary_key=True.")))
  /\ (kwargs !! "primary_key" = Some (VBool true) ->
      exists kwargs' : gmap string value,
        SalesforceAutoField_init Field_init class_name args kwargs =
          Field_init args kwargs'
        /\ kwargs' !! "blank" = Some (VBool false)
        /\ kwargs' !! "null" = Some (VBool false)
        /\ kwargs' !! "default" = Some VNone
        /\ kwargs' !! "primary_key" = Some (VBool true)
        /\ (forall k : string,
              k <> "blank" -> k <> "null" -> k <> "default" ->
              kwargs' !! k = kwargs !! k)).
Proof.
  unfold SalesforceAutoField_init. split.
  - intros Hpk. rewrite bool_decide_eq_false_2; [reflexivity|].
    destruct (kwargs !! "primary_key") as [v|] eqn:E; cbn.
    + intros ->. now apply Hpk.
    + discriminate.
  - intros Hpk. rewrite Hpk. simpl default.
    rewrite bool_decide_eq_true_2 by reflexivity.
    eexists. split; [reflexivity|].
    repeat split.
    + now simplify_map_eq.
    + now simplify_map_eq.
    + now simplify_map_eq.
    + now simplify_map_eq.
    + intros k H1 H2 H3. now simplify_map_eq.
Qed.

Lemma contribute_registered (self : FieldState) (cls : Options) (n : string) :
  has_auto_field cls = true ->
  contribute self cls n = Raise (AssertionError one_auto_field_msg).
Proof. intros H. unfold contribute_to_class. now rewrite H. Qed.

Lemma contribute_marks (self self' : FieldState) (cls cls' : Options)
    (n : string) :
  contribute self cls n = Return (self', cls') ->
  has_auto_field cls = false
  /\ has_auto_field cls' = true /\ auto_field cls' = Some self'.
Proof.
  unfold contribute_to_class.
  destruct (has_auto_field cls); [discriminate|].
  destruct (Field_contribute_to_class self cls n) as [e|[s c]]; cbn;
    [discriminate|].
  intros H. injection H as <- <-. repeat split.
Qed.

Lemma attach_registered (decls : list (FieldState * string)) (cls cls' : Options) :
  has_auto_field cls = true ->
  attach decls cls = Return cls' -> decls = [].
Proof.
  intros H. destruct decls as [|[f n] decls]; [reflexivity|].
  cbn [attach_auto_fields]. rewrite (contribute_registered f cls n H).
  discriminate.
Qed.

(** C7.  An identifier field cannot be attached to a class that
    already has one: the attachment fails at the assertion.  An
    attachment that goes through leaves the class marked as having an
    auto field, this one; so a second attachment fails, and a class body
    whose identifier fields were all attached declares at most one. *)
Theorem single_auto_field (self : FieldState) (cls : Options) (n : string) :
  (has_auto_field cls = true ->
   contribute self cls n = Raise (AssertionError one_auto_field_msg))
  /\ (forall self' cls',
        contribute self cls n = Return (self', cls') ->
        has_auto_field cls = false
        /\ has_auto_field cls' = true /\ auto_field cls' = Some self'
        /\ forall other n',
             contribute other cls' n' =
               Raise (AssertionError one_auto_field_msg))
  /\ (forall decls cls',
        attach decls cls = Return cls' ->
        length decls <= (if has_auto_field cls then 0 else 1)).
Proof.
  split; [apply contribute_registered|]. split.
  - intros self' cls' H.
    destruct (contribute_marks _ _ _ _ _ H) as (H0 & H1 & H2).
    repeat split; try assumption.
    intros other n'. now apply contribute_registered.
  - intros decls cls' H.
    destruct (has_auto_field cls) eqn:Hc.
    + now rewrite (attach_registered _ _ _ Hc H).
    + destruct decls as [|[f1 n1] decls]; [cbn; lia|].
      cbn [attach_auto_fields] in H.
      destruct (contribute f1 cls n1) as [e|[s1 c1]] eqn:E1; [discriminate|].
      cbn in H. destruct (contribute_marks _ _ _ _ _ E1) as (_ & Hm & _).
      rewrite (attach_registered _ _ _ Hm H). cbn. lia.
Qed.

(** C9.  [to_python] returns [None] for [None], a string unchanged,
    and the text of any other value; on every value but [None] the
    result is a string.  [validate] accepts every value. *)
Theorem auto_field_to_python (v : value) :
  to_python smart_text VNone = VNone
  /\ (forall s, to_python smart_text (VStr s) = VStr s)
  /\ (v <> VNone -> exists s, to_python smart_text v = VStr s)
  /\ (v <> VNone -> (forall s, v <> VStr s) ->
      to_python smart_text v = VStr (smart_text v))
  /\ get_prep_value smart_text v = to_python smart_text v
  /\ (forall (Model : Type) (model_instance : Model),
        validate v model_instance = Return tt).
Proof.
  repeat split.
  - intros Hv. destruct v; try (eexists; reflexivity). now destruct Hv.
  - intros Hv Hs. destruct v; try reflexivity.
    + now destruct Hv.
    + now destruct (Hs s).
Qed.

Lemma kwargs_pop_other (key k : string) (dflt : value)
    (kwargs : gmap string value) :
  k <> key -> snd (kwargs_pop key dflt kwargs) !! k = kwargs !! k.
Proof. intros Hk. unfold kwargs_pop. cbn [snd]. now apply lookup_delete_ne. Qed.

(** [ForeignKey.__init__] by cases: on the name of the policy, and on
    the positional arguments when the policy is not a supported one. *)
Lemma ForeignKey_init_cases (args : list value) (kwargs : gmap string value) :
  ForeignKey_init Field_init py_str args kwargs =
  match getattr_name (default CASCADE (kwargs !! "on_delete")) with
  | inl e => ([], inl e)
  | inr on_delete =>
      if str_in on_delete ["PROTECT"; "DO_NOTHING"]
      then ([], SfField_init Field_init args kwargs)
      else match args with
           | [] => ([], Raise IndexError)
           | related_object :: _ =>
               ([on_delete_warning py_str on_delete related_object],
                SfField_init Field_init args kwargs)
           end
  end.
Proof.
  unfold ForeignKey_init.
  destruct (getattr_name (default CASCADE (kwargs !! "on_delete")))
    as [e|n]; [reflexivity|].
  cbn [lift pbind].
  destruct (str_in n ["PROTECT"; "DO_NOTHING"]); cbn [negb]; [reflexivity|].
  destruct args as [|r args]; reflexivity.
Qed.

Lemma str_in_supported (n : string) :
  str_in n ["PROTECT"; "DO_NOTHING"] = true <->
  VObj n = PROTECT \/ VObj n = DO_NOTHING.
Proof.
  unfold str_in, PROTECT, DO_NOTHING. cbn [existsb].
  rewrite orb_false_r, orb_true_iff, !String.eqb_eq.
  split; (intros [H|H]; [left|right]); congruence.
Qed.

(** The relation field called with the related model in first
    position: a policy that is not supported gives one warning, made of
    the name of the policy and the text of the related model, and the
    construction goes on with the arguments as given, the policy among
    them; a supported policy gives no warning. *)
Lemma relation_init_positional (related : value) (rest : list value)
    (kwargs : gmap string value) (n : string) :
  kwargs !! "on_delete" = Some (VObj n) ->
  (VObj n <> PROTECT -> VObj n <> DO_NOTHING ->
   ForeignKey_init Field_init py_str (related :: rest) kwargs =
     ([on_delete_warning py_str n related],
      SfField_init Field_init (related :: rest) kwargs))
  /\ (VObj n = PROTECT \/ VObj n = DO_NOTHING ->
      ForeignKey_init Field_init py_str (related :: rest) kwargs =
        ([], SfField_init Field_init (related :: rest) kwargs))
  /\ SfField_init Field_init (related :: rest) kwargs =
       bind (Field_init (related :: rest)
               (delete "custom" (delete "sf_read_only" kwargs)))
            (fun st => Return (mkSfObject
                                 (default (VInt 0) (kwargs !! "sf_read_only"))
                                 (default (VBool false) (kwargs !! "custom"))
                                 st))
  /\ delete "custom" (delete "sf_read_only" kwargs) !! "on_delete"
     = Some (VObj n).
Proof.
  intros Hk. rewrite ForeignKey_init_cases, Hk.
  change (default CASCADE (Some (VObj n))) with (VObj n).
  cbn [getattr_name Return].
  repeat split.
  - intros H1 H2.
    destruct (str_in n ["PROTECT"; "DO_NOTHING"]) eqn:E; [|reflexivity].
    apply str_in_supported in E as [E|E]; contradiction.
  - intros H. apply str_in_supported in H. now rewrite H.
  - unfold SfField_init, kwargs_pop.
    rewrite lookup_delete_ne by discriminate. reflexivity.
  - rewrite !lookup_delete_ne by discriminate. exact Hk.
Qed.

(** C8.  The relation field declared with the related model as the
    keyword argument [to] and the policy [CASCADE]: the construction
    raises [IndexError] at [args[0]] and no warning is emitted.  With
    [PROTECT] the same declaration is constructed, and with the model in
    first position [CASCADE] gives the warning and is constructed. *)
Theorem relation_init_keyword_to :
  ForeignKey_init Field_init py_str []
    (<["on_delete" := CASCADE]> {["to" := VStr "Account"]})
  = ([], Raise IndexError)
  /\ ForeignKey_init Field_init py_str []
       (<["on_delete" := PROTECT]> {["to" := VStr "Account"]})
     = ([], SfField_init Field_init []
              (<["on_delete" := PROTECT]> {["to" := VStr "Account"]}))
  /\ ForeignKey_init Field_init py_str [VStr "Account"]
       {["on_delete" := CASCADE]}
     = ([on_delete_warning py_str "CASCADE" (VStr "Account")],
        SfField_init Field_init [VStr "Account"] {["on_delete" := CASCADE]}).
Proof.
  rewrite !ForeignKey_init_cases.
  rewrite !lookup_insert_eq, lookup_singleton_eq.
  repeat split.
Qed.

(** X12.  When no [on_delete] is given the policy looked up is
    [CASCADE], which is not one of the two supported names: a relation
    field declared with its related model in first position and no policy
    is constructed with the warning about [CASCADE].  Every relation
    field that was constructed without [PROTECT] or [DO_NOTHING] as its
    [on_delete] had exactly one warning emitted, about the policy it
    uses. *)
Theorem relation_default_policy_warns (args : list value)
    (kwargs : gmap string value) :
  str_in "CASCADE" ["PROTECT"; "DO_NOTHING"] = false
  /\ (kwargs !! "on_delete" = None ->
      forall related rest,
        args = related :: rest ->
        ForeignKey_init Field_init py_str args kwargs =
          ([on_delete_warning py_str "CASCADE" related],
           SfField_init Field_init args kwargs))
  /\ (forall ws obj,
        ForeignKey_init Field_init py_str args kwargs = (ws, Return obj) ->
        kwargs !! "on_delete" <> Some PROTECT ->
        kwargs !! "on_delete" <> Some DO_NOTHING ->
        exists n related rest,
          args = related :: rest
          /\ default CASCADE (kwargs !! "on_delete") = VObj n
          /\ ws = [on_delete_warning py_str n related]).
Proof.
  split; [reflexivity|]. rewrite ForeignKey_init_cases. split.
  - intros Hk related rest ->. rewrite Hk. reflexivity.
  - intros ws obj H Hp Hd.
    destruct (default CASCADE (kwargs !! "on_delete")) as [| | | |n] eqn:Ev;
      cbn [getattr_name Raise Return] in H; try discriminate.
    destruct (str_in n ["PROTECT"; "DO_NOTHING"]) eqn:E.
    + apply str_in_supported in E.
      destruct (kwargs !! "on_delete") as [v|] eqn:Ek; simpl in Ev.
      * subst v. destruct E as [E|E]; rewrite E in *; contradiction.
      * unfold CASCADE, PROTECT, DO_NOTHING in *.
        destruct E as [E|E]; congruence.
    + destruct args as [|related rest]; [discriminate|].
      injection H as <- _. now exists n, related, rest.
Qed.

(** C10.  The relation field declared with the related model as the
    keyword argument [to] and no [on_delete]: the policy looked up is
    [CASCADE], which is not supported, and the construction raises
    [IndexError] at [args[0]] with no warning emitted.  With the model in
    first position the same declaration gives the warning about
    [CASCADE] and is constructed. *)
Theorem relation_default_policy_keyword_to :
  ({["to" := VStr "Account"]} : gmap string value) !! "on_delete" = None
  /\ getattr_name (default CASCADE (@None value)) = Return "CASCADE"
  /\ str_in "CASCADE" ["PROTECT"; "DO_NOTHING"] = false
  /\ ForeignKey_init Field_init py_str [] {["to" := VStr "Account"]}
     = ([], Raise IndexError)
  /\ ForeignKey_init Field_init py_str [VStr "Account"] ∅
     = ([on_delete_warning py_str "CASCADE" (VStr "Account")],
        SfField_init Field_init [VStr "Account"] ∅).
Proof.
  rewrite !ForeignKey_init_cases.
  rewrite lookup_singleton_ne by discriminate. rewrite lookup_empty.
  repeat split.
Qed.

End FieldsProperties.

(** * Further properties of the naming methods *)

Section NamingFurther.

Context {U : Unicode}.

Lemma replace_absent (c : N) (s : list N) :
  ~ In c s -> PyStr.replace c [] s = s.
Proof.
  induction s as [|d s IH]; intros H; [reflexivity|].
  cbn [PyStr.replace]. destruct (N.eqb_spec d c) as [->|Hd].
  - destruct H. now left.
  - rewrite IH; [reflexivity|]. intros Hin. apply H. now right.
Qed.

(** A lower-case string has a lower-case character. *)
Lemma islower_loop_has_lower (s : list N) :
  PyStr.islower_loop false s = true -> exists c, In c s /\ is_lower c = true.
Proof.
  induction s as [|c s IH]; intros H; [discriminate|].
  cbn [PyStr.islower_loop] in H.
  destruct (is_upper c || is_title c); [discriminate|].
  destruct (is_lower c) eqn:Hl.
  - exists c. split; [now left | exact Hl].
  - destruct (IH H) as (d & Hd & Hdl). exists d. split; [now right | exact Hdl].
Qed.

Lemma islower_has_lower (s : list N) :
  PyStr.islower s = true -> exists c, In c s /\ is_lower c = true.
Proof.
  destruct s as [|c [|d s]]; intros H.
  - discriminate.
  - exists c. split; [now left | exact H].
  - now apply islower_loop_has_lower.
Qed.

(** Title-casing a string that has a character other than the
    underscore leaves text when the underscores are removed: the first
    such character is title-cased, and its mapping stays. *)
Lemma title_loop_keeps_text (HU : UnicodeFacts U) (data s : list N) (i : nat) :
  (exists c, In c s /\ c <> underscore) ->
  PyStr.replace underscore [] (PyStr.title_loop data i false s) <> [].
Proof.
  revert i. induction s as [|c s IH]; intros i (d & Hd & Hne); [easy|].
  cbn [PyStr.title_loop]. rewrite replace_app.
  destruct (N.eq_dec c underscore) as [->|Hc].
  - rewrite (ascii_is_cased underscore) by reflexivity.
    change (AsciiCase.iscased_char underscore) with false.
    destruct Hd as [<-|Hd]; [easy|].
    intros H. apply app_eq_nil in H as [_ H].
    apply (IH (S i)); [|exact H]. now exists d.
  - destruct (title_keeps_text c Hc) as [Hne' Hin].
    rewrite (replace_absent _ _ Hin).
    intros H. now apply app_eq_nil in H as [H _].
Qed.

(** X1.  The base column name of an ASCII name is never a lower-case
    name: a lower-case declared name comes out with an upper-case letter,
    any other name is kept.  Hence the naming rule applied to its own
    result changes nothing. *)
Theorem base_column_salesforce_style (n : list N) :
  UnicodeFacts U ->
  is_ascii n = true ->
  PyStr.islower (base_column n) = false
  /\ base_column (base_column n) = base_column n.
Proof.
  intros HU Ha.
  assert (H : PyStr.islower (base_column n) = false).
  { rewrite (islower_ascii _ (base_column_is_ascii n Ha)).
    rewrite (base_column_ascii n Ha).
    destruct (AsciiCase.islower n) eqn:Hl; [|exact Hl].
    apply has_upper_not_islower. now apply title_of_lower_has_upper. }
  split; [exact H|].
  rewrite (base_column_unfold (base_column n)). now rewrite H.
Qed.

(** X2.  The base column name of an ASCII name is as long as the name,
    less one character for each underscore of a lower-case name. *)
Theorem base_column_length (n : list N) :
  UnicodeFacts U ->
  is_ascii n = true ->
  length (base_column n)
  + (if PyStr.islower n then count_char underscore n else 0)
  = length n.
Proof.
  intros HU Ha. rewrite (base_column_ascii n Ha), (islower_ascii n Ha).
  destruct (AsciiCase.islower n); [|lia].
  unfold AsciiCase.title.
  rewrite <- (title_loop_count_underscore n false), replace_length.
  apply title_loop_length.
Qed.

(** X3.  The base column name is empty only for the empty name. *)
Theorem base_column_empty (n : list N) :
  UnicodeFacts U ->
  base_column n = [] <-> n = [].
Proof.
  intros HU. split; [|intros ->; reflexivity].
  rewrite base_column_unfold. destruct (PyStr.islower n) eqn:Hl; [|easy].
  intros H. exfalso.
  destruct (islower_has_lower n Hl) as (c & Hc & Hlc).
  apply (title_loop_keeps_text HU n n 0); [|exact H].
  exists c. split; [exact Hc|]. intros ->.
  rewrite (ascii_is_lower underscore) in Hlc by reflexivity. discriminate.
Qed.

(** X4.  On a lower-case ASCII name the naming rule changes only the
    case of letters and drops the underscores: in lower case, the base
    column name is the name without its underscores. *)
Theorem base_column_lower (n : list N) :
  UnicodeFacts U ->
  is_ascii n = true ->
  PyStr.islower n = true ->
  PyStr.lower (base_column n) = PyStr.replace underscore [] n.
Proof.
  intros HU Ha Hl. unfold PyStr.lower.
  rewrite (lower_loop_ascii _ _ _ (base_column_is_ascii n Ha)).
  rewrite (islower_ascii n Ha) in Hl.
  rewrite (base_column_ascii n Ha), Hl. unfold AsciiCase.title.
  rewrite lower_replace, lower_title_loop.
  now rewrite (lower_no_upper n (islower_loop_no_upper n false Hl)).
Qed.

(** X5.  For a relation field without [db_column] that is not custom:
    when the declared name is not lower-case the column and the attribute
    name are the same string; on an ASCII name the column is the base
    column name of the attribute name, the [_id] of a lower-case attribute
    name becoming the [Id] of the column. *)
Theorem relation_column_of_attname (self : Field) :
  cls self = ForeignKey ->
  db_column self = None ->
  truthy (sf_custom self) = false ->
  (PyStr.islower (name self) = false -> column self = attname self)
  /\ (UnicodeFacts U -> is_ascii (name self) = true ->
      column self = base_column (attname self)).
Proof.
  intros Hc Hdb Hcu.
  rewrite (attname_relation _ Hc), (column_no_override _ Hdb), Hcu, Hc.
  unfold ForeignKey_get_attname. split.
  - intros Hl. now rewrite Hl, base_column_unfold, Hl.
  - intros HU Ha.
    rewrite (islower_ascii _ Ha), (base_column_ascii _ Ha).
    destruct (AsciiCase.islower (name self)) eqn:Hl.
    + assert (Ha' : is_ascii (name self ++ pystr_of "_id") = true)
        by now rewrite is_ascii_app, Ha.
      rewrite (base_column_ascii _ Ha'). unfold AsciiCase.islower in *.
      rewrite (islower_loop_append (name self) (pystr_of "_id") false eq_refl Hl).
      unfold AsciiCase.title. rewrite title_loop_append, replace_app.
      f_equal. now destruct (cased_after false (name self)).
    + assert (Ha' : is_ascii (name self ++ pystr_of "Id") = true)
        by now rewrite is_ascii_app, Ha.
      rewrite (base_column_ascii _ Ha'). unfold AsciiCase.islower.
      rewrite has_upper_not_islower; [reflexivity|].
      rewrite has_upper_app. apply orb_true_r.
Qed.

(** X6.  Relation fields with different declared names have different
    attribute names. *)
Theorem relation_attname_injective (f g : Field) :
  cls f = ForeignKey -> cls g = ForeignKey ->
  attname f = attname g -> name f = name g.
Proof.
  intros Hf Hg. rewrite (attname_relation _ Hf), (attname_relation _ Hg).
  unfold ForeignKey_get_attname.
  change (pystr_of "_id") with ([95; 105] ++ [100])%N.
  change (pystr_of "Id") with ([73] ++ [100])%N.
  destruct (PyStr.islower (name f)), (PyStr.islower (name g)); intros H.
  - now apply app_inv_tail in H.
  - rewrite !app_assoc in H. apply app_inj_tail in H as [H _].
    change [95; 105]%N with ([95] ++ [105])%N in H. rewrite app_assoc in H.
    apply app_inj_tail in H as [_ H]. discriminate.
  - rewrite !app_assoc in H. apply app_inj_tail in H as [H _].
    change [95; 105]%N with ([95] ++ [105])%N in H. rewrite app_assoc in H.
    apply app_inj_tail in H as [_ H]. discriminate.
  - now apply app_inv_tail in H.
Qed.

(** X7.  The attribute name does not depend on [db_column],
    [sf_read_only] or [custom]; for a scalar field it is the declared
    name. *)
Theorem attname_ignores_column_options (c : FieldClass) (n : list N)
    (d d' : option (list N)) (r r' u u' : value) :
  attname (mkField c n d r u) = attname (mkField c n d' r' u')
  /\ (c <> ForeignKey -> attname (mkField c n d r u) = n).
Proof.
  split.
  - destruct c; reflexivity.
  - intros Hc. destruct c; try reflexivity. now destruct Hc.
Qed.

End NamingFurther.

(** ** Construction *)

Section ConstructionProperties.

Context {FieldState : Type}.
Variable Field_init : list value -> gmap string value -> result FieldState.
Variable smart_text : value -> string.
Variable py_str : value -> string.

(** X8.  [SfField.__init__] takes [sf_read_only] and [custom] out of the
    keyword arguments: the framework initialiser is called without these
    two options and with every other option as given; the object keeps
    the two values, [0] and [False] when they were not given.  A failure
    of the framework initialiser is the failure of the construction. *)
Theorem SfField_init_pops_options (args : list value)
    (kwargs : gmap string value) :
  exists kwargs' : gmap string value,
    SfField_init Field_init args kwargs =
      bind (Field_init args kwargs')
           (fun st => Return (mkSfObject
                                (default (VInt 0) (kwargs !! "sf_read_only"))
                                (default (VBool false) (kwargs !! "custom"))
                                st))
    /\ kwargs' !! "sf_read_only" = None
    /\ kwargs' !! "custom" = None
    /\ (forall k : string,
          k <> "sf_read_only" -> k <> "custom" -> kwargs' !! k = kwargs !! k)
    /\ (forall e : exn,
          Field_init args kwargs' = Raise e ->
          SfField_init Field_init args kwargs = Raise e).
Proof.
  exists (delete "custom" (delete "sf_read_only" kwargs)).
  assert (Heq : SfField_init Field_init args kwargs =
      bind (Field_init args (delete "custom" (delete "sf_read_only" kwargs)))
           (fun st => Return (mkSfObject
                                (default (VInt 0) (kwargs !! "sf_read_only"))
                                (default (VBool false) (kwargs !! "custom"))
                                st))).
  { unfold SfField_init, kwargs_pop.
    rewrite lookup_delete_ne by discriminate. reflexivity. }
  split; [exact Heq|]. repeat split.
  - rewrite lookup_delete_ne by discriminate. apply lookup_delete_eq.
  - apply lookup_delete_eq.
  - intros k H1 H2. now rewrite !lookup_delete_ne by congruence.
  - intros e He. rewrite Heq, He. reflexivity.
Qed.

(** X9.  A relation field whose [on_delete] is an object without a
    [__name__] ([None], a number, a string) is not constructed:
    [AttributeError] is raised, with no warning, whatever the other
    arguments. *)
Theorem relation_init_unnamed_policy (args : list value)
    (kwargs : gmap string value) (v : value) :
  kwargs !! "on_delete" = Some v ->
  (forall n, v <> VObj n) ->
  ForeignKey_init Field_init py_str args kwargs = ([], Raise AttributeError).
Proof.
  intros Hk Hv. unfold ForeignKey_init. rewrite Hk.
  change (default CASCADE (Some v)) with v.
  destruct v as [| | | |n]; try reflexivity. now destruct (Hv n).
Qed.

(** X10.  [ForeignKey.__init__] emits at most one warning.  Its outcome
    is [AttributeError], [IndexError], or the outcome of
    [SfField.__init__] on the arguments as given; when a warning was
    emitted it is the latter: the warning comes before the framework
    is reached, and stays emitted if the framework then fails. *)
Theorem relation_init_outcomes (args : list value)
    (kwargs : gmap string value) :
  let r := ForeignKey_init Field_init py_str args kwargs in
  length (fst r) <= 1
  /\ (snd r = Raise AttributeError \/ snd r = Raise IndexError
      \/ snd r = SfField_init Field_init args kwargs)
  /\ (fst r <> [] -> snd r = SfField_init Field_init args kwargs).
Proof.
  clear smart_text. cbv zeta. rewrite ForeignKey_init_cases.
  destruct (getattr_name (default CASCADE (kwargs !! "on_delete")))
    as [e|n] eqn:En.
  - cbn [fst snd length]. split; [lia|]. split.
    + left. destruct (default CASCADE (kwargs !! "on_delete"));
        cbn in En; unfold Raise, Return in En |- *; congruence.
    + intros H. now destruct H.
  - destruct (str_in n ["PROTECT"; "DO_NOTHING"]).
    + cbn [fst snd length]. split; [lia|]. split; [tauto|].
      intros H. now destruct H.
    + destruct args as [|related rest]; cbn [fst snd length].
      * split; [lia|]. split; [tauto|]. intros H. now destruct H.
      * split; [lia|]. split; [tauto|reflexivity].
Qed.

(** X11.  [to_python] of the identifier field gives [None] or a string,
    and applied to its own result it changes nothing; so does
    [get_prep_value]. *)
Theorem to_python_idempotent (v : value) :
  (to_python smart_text v = VNone
   \/ exists s, to_python smart_text v = VStr s)
  /\ to_python smart_text (to_python smart_text v) = to_python smart_text v
  /\ get_prep_value smart_text (get_prep_value smart_text v)
     = get_prep_value smart_text v.
Proof.
  unfold get_prep_value.
  destruct v; cbn; (split; [first [left; reflexivity | right; eexists; reflexivity]|]);
    split; reflexivity.
Qed.

End ConstructionProperties.

(** ** The theorems at concrete declarations, on ASCII text *)

Lemma base_column_of_declared_name_witness :
  db_column email_bounced_reason = None
  /\ column (U := ascii_unicode) email_bounced_reason
     = pystr_of "EmailBouncedReason"
  /\ base_column (U := ascii_unicode) (name email_bounced_reason)
     = NamingSpec.camel_case (pystr_of "email_bounced_reason").
Proof.
  split; [reflexivity|].
  destruct (base_column_of_declared_name (U := ascii_unicode)
              email_bounced_reason eq_refl)
    as (Hcol & _ & _ & Hfacts).
  destruct (Hfacts ascii_unicode_facts) as (Hcamel & _).
  split; [rewrite Hcol; reflexivity|].
  apply Hcamel; reflexivity.
Defined.

Lemma custom_column_suffix_witness :
  db_column my_field = None /\ sf_custom my_field = VBool true
  /\ PyStr.islower (U := ascii_unicode) (name my_field ++ pystr_of "__c") = true
  /\ column (U := ascii_unicode) my_field = pystr_of "MyField__c"
  /\ column (U := ascii_unicode) my_field
     <> base_column (U := ascii_unicode) (name my_field ++ pystr_of "__c").
Proof.
  split; [reflexivity|]. split; [reflexivity|]. split; [reflexivity|].
  destruct (custom_column_suffix (U := ascii_unicode) my_field eq_refl eq_refl)
    as (Hcol & Hne & _).
  split; [rewrite Hcol; reflexivity|].
  exact (Hne eq_refl).
Defined.

Lemma explicit_db_column_verbatim_witness :
  db_column account_number = Some (pystr_of "Account_Number__c")
  /\ column (U := ascii_unicode) account_number = pystr_of "Account_Number__c".
Proof.
  split; [reflexivity|].
  apply (explicit_db_column_verbatim (U := ascii_unicode) account_number
           (pystr_of "Account_Number__c")).
  reflexivity.
Defined.

Lemma relation_attname_witness :
  cls CreatedBy = ForeignKey
  /\ is_ascii (name CreatedBy) = true
  /\ get_attname (U := ascii_unicode) CreatedBy = pystr_of "CreatedById".
Proof.
  split; [reflexivity|]. split; [reflexivity|].
  destruct (relation_attname (U := ascii_unicode) CreatedBy eq_refl)
    as (_ & _ & Hfacts).
  destruct (Hfacts ascii_unicode_facts) as (H & _).
  rewrite (H eq_refl). reflexivity.
Defined.

Lemma relation_column_witness :
  cls owner = ForeignKey
  /\ (db_column owner = None /\ truthy (sf_custom owner) = false)
  /\ column (U := ascii_unicode) owner = pystr_of "OwnerId".
Proof.
  split; [reflexivity|]. split; [split; reflexivity|].
  destruct (relation_column (U := ascii_unicode) owner eq_refl) as (H & _).
  rewrite H; [reflexivity | split; reflexivity].
Defined.

Lemma base_column_salesforce_style_witness :
  is_ascii (pystr_of "last_name") = true
  /\ PyStr.islower (U := ascii_unicode)
       (base_column (U := ascii_unicode) (pystr_of "last_name")) = false.
Proof.
  split; [reflexivity|].
  exact (proj1 (base_column_salesforce_style (U := ascii_unicode)
                  (pystr_of "last_name") ascii_unicode_facts eq_refl)).
Defined.

Lemma base_column_length_witness :
  is_ascii (pystr_of "email_bounced_reason") = true
  /\ length (base_column (U := ascii_unicode) (pystr_of "email_bounced_reason"))
     + 2 = 20.
Proof.
  split; [reflexivity|].
  exact (base_column_length (U := ascii_unicode)
           (pystr_of "email_bounced_reason") ascii_unicode_facts eq_refl).
Defined.

Lemma base_column_empty_witness :
  base_column (U := ascii_unicode) (pystr_of "Id") <> [].
Proof.
  intros H.
  apply (proj1 (base_column_empty (U := ascii_unicode) (pystr_of "Id")
                  ascii_unicode_facts)) in H.
  discriminate.
Defined.

Lemma base_column_lower_witness :
  is_ascii (pystr_of "email_bounced_reason") = true
  /\ PyStr.islower (U := ascii_unicode) (pystr_of "email_bounced_reason") = true
  /\ PyStr.lower (U := ascii_unicode)
       (base_column (U := ascii_unicode) (pystr_of "email_bounced_reason"))
     = pystr_of "emailbouncedreason".
Proof.
  split; [reflexivity|]. split; [reflexivity|].
  rewrite (base_column_lower (U := ascii_unicode)
             (pystr_of "email_bounced_reason") ascii_unicode_facts
             eq_refl eq_refl).
  reflexivity.
Defined.

Lemma relation_column_of_attname_witness :
  cls owner = ForeignKey /\ db_column owner = None
  /\ truthy (sf_custom owner) = false
  /\ is_ascii (name owner) = true
  /\ column (U := ascii_unicode) owner
     = base_column (U := ascii_unicode) (pystr_of "owner_id")
  /\ PyStr.islower (U := ascii_unicode) (name CreatedBy) = false
  /\ column (U := ascii_unicode) CreatedBy = pystr_of "CreatedById".
Proof.
  split; [reflexivity|]. split; [reflexivity|]. split; [reflexivity|].
  split; [reflexivity|].
  destruct (relation_column_of_attname (U := ascii_unicode) owner
              eq_refl eq_refl eq_refl) as [_ H].
  split; [rewrite (H ascii_unicode_facts eq_refl); reflexivity|].
  split; [reflexivity|].
  destruct (relation_column_of_attname (U := ascii_unicode) CreatedBy
              eq_refl eq_refl eq_refl) as [H' _].
  rewrite (H' eq_refl). reflexivity.
Defined.

Lemma relation_attname_injective_witness :
  cls owner = ForeignKey
  /\ cls (mkField ForeignKey (pystr_of "owner") (Some (pystr_of "OwnerId"))
                  (VInt 0) (VBool true))
     = ForeignKey
  /\ attname (U := ascii_unicode) owner
     = attname (U := ascii_unicode)
         (mkField ForeignKey (pystr_of "owner") (Some (pystr_of "OwnerId"))
                  (VInt 0) (VBool true))
  /\ name owner = pystr_of "owner".
Proof.
  split; [reflexivity|]. split; [reflexivity|]. split; [reflexivity|].
  exact (relation_attname_injective (U := ascii_unicode) owner
           (mkField ForeignKey (pystr_of "owner") (Some (pystr_of "OwnerId"))
                    (VInt 0) (VBool true))
           eq_refl eq_refl eq_refl).
Defined.

Lemma attname_ignores_column_options_witness :
  CharField <> ForeignKey
  /\ attname (U := ascii_unicode)
       (mkField CharField (pystr_of "last_name") (Some (pystr_of "LastName"))
                (VInt 0) (VBool true))
     = pystr_of "last_name".
Proof.
  assert (H : CharField <> ForeignKey) by discriminate.
  split; [exact H|].
  exact (proj2 (attname_ignores_column_options (U := ascii_unicode) CharField
                  (pystr_of "last_name") (Some (pystr_of "LastName")) None
                  (VInt 0) (VInt 0) (VBool true) (VBool false)) H).
Defined.

(** ** The theorems on construction at concrete declarations *)

Lemma auto_field_requires_primary_key_witness :
  let given : gmap string value :=
    <["null" := VBool true]> {["primary_key" := VBool true]} in
  (∅ : gmap string value) !! "primary_key" <> Some (VBool true)
  /\ SalesforceAutoField_init recording_init "SalesforceAutoField" [] ∅
     = Raise (AssertionError "SalesforceAutoFields must have primary_key=True.")
  /\ given !! "primary_key" = Some (VBool true)
  /\ exists kwargs' : gmap string value,
       SalesforceAutoField_init recording_init "SalesforceAutoField" [] given
       = Return ([], kwargs')
       /\ kwargs' !! "null" = Some (VBool false).
Proof.
  intros given.
  assert (H0 : (∅ : gmap string value) !! "primary_key" <> Some (VBool true))
    by discriminate.
  assert (H1 : given !! "primary_key" = Some (VBool true)) by reflexivity.
  split; [exact H0|]. split.
  - exact (proj1 (auto_field_requires_primary_key recording_init
                    "SalesforceAutoField" [] ∅) H0).
  - split; [exact H1|].
    destruct (proj2 (auto_field_requires_primary_key recording_init
                       "SalesforceAutoField" [] given) H1)
      as (kw & Heq & _ & Hnull & _).
    exists kw. split; [exact Heq | exact Hnull].
Defined.

Lemma single_auto_field_witness :
  has_auto_field class_with_id = true
  /\ contribute_to_class recording_contribute id_field class_with_id "Id2"
     = Raise (AssertionError "A model can't have more than one AutoField.")
  /\ contribute_to_class recording_contribute id_field empty_class "Id"
     = Return (id_field, class_with_id)
  /\ has_auto_field class_with_id = true.
Proof.
  split; [reflexivity|]. split.
  - exact (proj1 (single_auto_field recording_contribute
                    id_field class_with_id "Id2") eq_refl).
  - split; [reflexivity|].
    destruct (single_auto_field recording_contribute id_field empty_class "Id")
      as (_ & H & _).
    destruct (H id_field class_with_id eq_refl) as (_ & Hm & _).
    exact Hm.
Defined.

Lemma auto_field_to_python_witness :
  VInt 15 <> VNone
  /\ (forall s, VInt 15 <> VStr s)
  /\ to_python text_of (VInt 15) = VStr "15".
Proof.
  assert (H0 : VInt 15 <> VNone) by discriminate.
  assert (H1 : forall s, VInt 15 <> VStr s) by discriminate.
  split; [exact H0|]. split; [exact H1|].
  destruct (auto_field_to_python text_of (VInt 15)) as (_ & _ & _ & H & _).
  rewrite (H H0 H1). reflexivity.
Defined.

Lemma relation_default_policy_warns_witness :
  (∅ : gmap string value) !! "on_delete" = None
  /\ ForeignKey_init recording_init text_of [VObj "User"] ∅
     = (["Only foreign keys with on_delete = PROTECT or DO_NOTHING are currently supported, not CASCADE related to <class 'User'>"],
        Return (mkSfObject (VInt 0) (VBool false) ([VObj "User"], ∅))).
Proof.
  split; [reflexivity|].
  destruct (relation_default_policy_warns recording_init text_of
              [VObj "User"] ∅) as (_ & H & _).
  rewrite (H eq_refl (VObj "User") [] eq_refl). reflexivity.
Defined.


Lemma SfField_init_pops_options_witness :
  let given : gmap string value :=
    <["custom" := VBool true]> (<["max_length" := VInt 80]> ∅) in
  exists kwargs' : gmap string value,
    SfField_init recording_init [] given
    = Return (mkSfObject (VInt 0) (VBool true) ([], kwargs'))
    /\ kwargs' !! "custom" = None
    /\ kwargs' !! "max_length" = Some (VInt 80).
Proof.
  intros given.
  destruct (SfField_init_pops_options recording_init [] given)
    as (kw & Heq & _ & Hcu & Hother & _).
  exists kw. split; [exact Heq|]. split; [exact Hcu|].
  rewrite (Hother "max_length") by discriminate. reflexivity.
Defined.

Lemma relation_init_unnamed_policy_witness :
  ({["on_delete" := VNone]} : gmap string value) !! "on_delete" = Some VNone
  /\ (forall n, VNone <> VObj n)
  /\ ForeignKey_init recording_init text_of [VObj "User"]
       {["on_delete" := VNone]}
     = ([], Raise AttributeError).
Proof.
  assert (H : forall n, VNone <> VObj n) by discriminate.
  split; [reflexivity|]. split; [exact H|].
  exact (relation_init_unnamed_policy recording_init text_of [VObj "User"]
           {["on_delete" := VNone]} VNone eq_refl H).
Defined.

Lemma relation_init_outcomes_witness :
  let r := ForeignKey_init recording_init text_of [VObj "User"] ∅ in
  fst r <> []
  /\ snd r = SfField_init recording_init [VObj "User"] ∅.
Proof.
  intros r.
  assert (H : fst r <> []) by discriminate.
  split; [exact H|].
  destruct (relation_init_outcomes recording_init text_of [VObj "User"] ∅)
    as (_ & _ & Hw).
  exact (Hw H).
Defined.

